(** * systemd-cd: the unit-file reconciliation engine

    A shallow embedding of [domain/model/systemd/main.go] and the
    properties of [New], [NewService] and [DeleteService].

    The Go code talks to four collaborators that live in other files of
    the package: the file accessor ([MkdirIfNotExist], [ReadFile],
    [WriteFile], and [os.Remove]), the unit-file codec
    ([MarshalUnitFile], [UnmarshalUnitFile], [Equals]), the TOML codec
    ([toml.Decode], [toml.Encode]) and the [Systemctl] client.  They are
    interfaces here (type classes); the engine is written over them the
    way the Go code is, as state-passing code that also logs each
    collaborator call it makes. *)

From stdpp Require Import base strings list gmap fin_maps.
From Stdlib Require Import String Ascii Lia.

Local Open Scope string_scope.
Local Open Scope list_scope.

(** ** Go strings

    A Go string is a sequence of bytes; so is a Rocq [string]. *)
Module GoStrings.

(** [strings.HasPrefix(s, prefix)] *)
Fixpoint HasPrefix (s prefix : string) {struct prefix} : bool :=
  match prefix, s with
  | EmptyString, _ => true
  | String c p', String d s' => Ascii.eqb c d && HasPrefix s' p'
  | String _ _, EmptyString => false
  end.

(** [strings.Contains(s, substr)]: [substr] occurs at some offset. *)
Fixpoint Contains (s substr : string) : bool :=
  HasPrefix s substr ||
  match s with
  | EmptyString => false
  | String _ s' => Contains s' substr
  end.

(** [strings.HasSuffix(s, suffix)]:
    [len(s) >= len(suffix) && s[len(s)-len(suffix):] == suffix]. *)
Definition HasSuffix (s suffix : string) : bool :=
  (String.length suffix <=? String.length s)%nat &&
  String.eqb
    (String.substring (String.length s - String.length suffix)
                      (String.length suffix) s)
    suffix.

(** [strings.Join(elems, sep)] *)
Definition Join (elems : list string) (sep : string) : string :=
  String.concat sep elems.

(** The text before the first line feed, and the text after it. *)
Fixpoint cutLine (s : string) : string * string :=
  match s with
  | EmptyString => (EmptyString, EmptyString)
  | String c s' =>
      if Ascii.eqb c "010"%char then (EmptyString, s')
      else let '(l, r) := cutLine s' in (String c l, r)
  end.

Fixpoint noLineFeed (s : string) : bool :=
  match s with
  | EmptyString => true
  | String c s' => negb (Ascii.eqb c "010"%char) && noLineFeed s'
  end.

End GoStrings.
Import GoStrings.

(** ** Errors

    The three sentinel errors of the package, the operating system's
    "does not exist" error (the one [os.IsNotExist] recognises), and any
    other error of a collaborator. *)
Inductive error : Type :=
| ErrNoSuchFileOrDir
| ErrUnitFileNotManaged
| ErrUnitEnvFileNotManaged
| ErrNotExist (path : string)
| ErrOther (msg : string).

#[global] Instance error_eq_dec : EqDecision error.
Proof. solve_decision. Defined.

(** A Go [error] value: [None] is [nil]. *)
Definition goerr : Type := option error.

(** [os.IsNotExist(err)]; false on [nil] and on errors made with
    [errors.New], such as [ErrNoSuchFileOrDir]. *)
Definition IsNotExist (err : goerr) : bool :=
  match err with
  | Some (ErrNotExist _) => true
  | _ => false
  end.

(** [err != nil] *)
Definition notNil (err : goerr) : bool :=
  match err with Some _ => true | None => false end.

(** ** Environment maps

    A Go [map[string]string] is [nil] or a finite map. *)
Definition gomap : Type := option (gmap string string).

(** Reading a key; a [nil] map reads as a map without keys. *)
Definition gomap_lookup (m : gomap) (k : string) : option string :=
  match m with
  | None => None
  | Some g => g !! k
  end.

Definition gomap_len (m : gomap) : nat :=
  match m with
  | None => 0
  | Some g => size g
  end.

(** [reflect.DeepEqual] on two [map[string]string]: both nil or both
    non-nil, of the same length, and each key of the first maps to
    an equal value in the second. *)
Definition DeepEqual (a b : gomap) : bool :=
  match a, b with
  | None, None => true
  | Some x, Some y =>
      (size x =? size y)%nat &&
      forallb (fun kv => bool_decide (y !! kv.1 = Some kv.2)) (map_to_list x)
  | _, _ => false
  end.

(** The equality the specification words: the same keys with the same
    values, whatever the order. *)
Definition same_entries (a b : gomap) : Prop :=
  ∀ k, gomap_lookup a k = gomap_lookup b k.

(** ** The ownership tag *)
Definition generatedTag : string :=
  "#! Generated by systemd-cd" +:+ String "010"%char EmptyString.

(** [toml.EncodeOption] *)
Record EncodeOption : Type := { Indent : option string }.

(** ** Collaborators *)

(** The file accessor over a file-system state [FS]. *)
Class FileAccessor (FS : Type) : Type := {
  MkdirIfNotExist : string → FS → FS * goerr;
  ReadFile : string → FS → error + string;
  WriteFile : string → string → FS → FS * goerr;
  os_Remove : string → FS → FS * goerr
}.

(** The unit-file model and its codec. *)
Class UnitFileCodec (UnitFileService : Type) : Type := {
  UnitFileService_zero : UnitFileService;
  Service_EnvironmentFile : UnitFileService → option string;
  Equals : UnitFileService → UnitFileService → bool;
  MarshalUnitFile : UnitFileService → error + string;
  UnmarshalUnitFile : string → UnitFileService * goerr
}.

(** The TOML codec: [toml_Decode b] is the map left in a nil map variable
    by [toml.Decode(b, &e)], with the error it returns; [toml_Encode] is
    what [toml.Encode] writes. *)
Class TomlCodec : Type := {
  toml_Decode : string → gomap * goerr;
  toml_Encode : gomap → EncodeOption → error + string
}.

(** The [Systemctl] interface: its values (of which [Systemctl_nil] is the
    nil interface value) act on the manager's state [Mgr], which is apart
    from the files. *)
Class SystemctlClient (Systemctl Mgr : Type) : Type := {
  Systemctl_nil : Systemctl;
  DaemonReload : Systemctl → Mgr → Mgr * goerr
}.

(** The handle: [UnitService{systemctl, name, uf, path, env}]. *)
Record UnitService (UnitFileService Systemctl : Type) : Type := mkUnitService {
  us_systemctl : Systemctl;
  Name : string;
  UnitFile : UnitFileService;
  Path : string;
  Env : gomap
}.

Arguments mkUnitService {_ _} _ _ _ _ _.
Arguments us_systemctl {_ _} _.
Arguments Name {_ _} _.
Arguments UnitFile {_ _} _.
Arguments Path {_ _} _.
Arguments Env {_ _} _.

(** The handle's method [Disable(now)], a request to the manager. *)
Class UnitServiceMethods (UnitFileService Systemctl Mgr : Type) : Type := {
  UnitService_Disable :
    UnitService UnitFileService Systemctl → bool → Mgr → Mgr * goerr
}.

(** ** Calls the engine makes *)
Inductive event : Type :=
| EvMkdir (dir : string)
| EvRead (path : string)
| EvWrite (path data : string)
| EvRemove (path : string)
| EvDaemonReload
| EvDisable (name : string) (now : bool).

#[global] Instance event_eq_dec : EqDecision event.
Proof. solve_decision. Defined.

Definition isWrite (e : event) : bool :=
  match e with EvWrite _ _ => true | _ => false end.

Definition isReload (e : event) : bool :=
  match e with EvDaemonReload => true | _ => false end.

Definition isRemove (e : event) : bool :=
  match e with EvRemove _ => true | _ => false end.

(** The path of a file event. *)
Definition filePath (e : event) : option string :=
  match e with
  | EvMkdir p | EvRead p | EvWrite p _ | EvRemove p => Some p
  | EvDaemonReload | EvDisable _ _ => None
  end.

Definition count (p : event → bool) (t : list event) : nat :=
  List.length (filter (λ e, p e = true) t).

(** The writes of a trace, in order. *)
Definition writes (t : list event) : list event :=
  filter (λ e, isWrite e = true) t.

Section Engine.

Context {FS Mgr UnitFileService Systemctl : Type}.
Context `{!FileAccessor FS, !UnitFileCodec UnitFileService,
          !TomlCodec, !SystemctlClient Systemctl Mgr,
          !UnitServiceMethods UnitFileService Systemctl Mgr}.

(** The host: its files and its service manager. *)
Record World : Type := mkWorld { fs : FS; mgr : Mgr }.

(** A computation returns a value, the next world, and the calls it
    made, oldest first. *)
Definition M (A : Type) : Type := World → A * World * list event.

Definition ret {A} (a : A) : M A := λ w, (a, w, []).

Definition bind {A B} (m : M A) (k : A → M B) : M B :=
  λ w, let '(a, w1, t1) := m w in
       let '(b, w2, t2) := k a w1 in
       (b, w2, t1 ++ t2).

Notation "x <- m ;; k" := (bind m (λ x, k))
  (at level 100, m at next level, right associativity).

Definition value {A} (r : A * World * list event) : A := r.1.1.
Definition world {A} (r : A * World * list event) : World := r.1.2.
Definition trace {A} (r : A * World * list event) : list event := r.2.

(** *** Collaborator calls, logged *)
Definition mkdirIfNotExist (dir : string) : M goerr :=
  λ w, let '(f, err) := MkdirIfNotExist dir (fs w) in
       (err, mkWorld f (mgr w), [EvMkdir dir]).

Definition readFile (path : string) : M (error + string) :=
  λ w, (ReadFile path (fs w), w, [EvRead path]).

Definition writeFile (path data : string) : M goerr :=
  λ w, let '(f, err) := WriteFile path data (fs w) in
       (err, mkWorld f (mgr w), [EvWrite path data]).

Definition remove (path : string) : M goerr :=
  λ w, let '(f, err) := os_Remove path (fs w) in
       (err, mkWorld f (mgr w), [EvRemove path]).

Definition daemonReload (c : Systemctl) : M goerr :=
  λ w, let '(m, err) := DaemonReload c (mgr w) in
       (err, mkWorld (fs w) m, [EvDaemonReload]).

Definition disable (u : UnitService UnitFileService Systemctl) (now : bool)
  : M goerr :=
  λ w, let '(m, err) := UnitService_Disable u now (mgr w) in
       (err, mkWorld (fs w) m, [EvDisable (Name u) now]).

(** *** The types of main.go *)
Record Systemd : Type := mkSystemd {
  systemctl : Systemctl;
  unitFileDir : string
}.

Definition Systemd_zero : Systemd := mkSystemd Systemctl_nil "".

(** [UnitService{}] *)
Definition UnitService_zero : UnitService UnitFileService Systemctl :=
  mkUnitService Systemctl_nil "" UnitFileService_zero "" None.

(** *** New *)
Definition New (s : Systemctl) (unitFileDir : string) : M (Systemd * goerr) :=
  err <- mkdirIfNotExist unitFileDir;;
  if notNil err then ret (Systemd_zero, err)
  else
    let unitFileDir :=
      if negb (HasSuffix unitFileDir "/") then unitFileDir +:+ "/"
      else unitFileDir in
    ret (mkSystemd s unitFileDir, None).

(** *** loadUnitFileSerivce *)
Definition loadUnitFileSerivce (s : Systemd) (path : string)
  : M (UnitFileService * bool * goerr) :=
  r <- readFile path;;
  match r with
  | inl e => ret (UnitFileService_zero, false, Some e)
  | inr b =>
      let isGeneratedBySystemdCd := Contains b generatedTag in
      let '(u, err) := UnmarshalUnitFile b in
      ret (u, isGeneratedBySystemdCd, err)
  end.

(** *** writeUnitFileService *)
Definition writeUnitFileService (s : Systemd) (u : UnitFileService)
    (path : string) : M goerr :=
  match MarshalUnitFile u with
  | inl err => ret (Some err)
  | inr b2 => writeFile path (generatedTag +:+ b2)
  end.

(** *** loadEnvFile *)
Definition loadEnvFile (s : Systemd) (path : string)
  : M (gomap * bool * goerr) :=
  r <- readFile path;;
  match r with
  | inl e => ret (None, false, Some e)
  | inr b =>
      let isGeneratedBySystemdCd := Contains b generatedTag in
      let '(e, err) := toml_Decode b in
      ret (e, isGeneratedBySystemdCd, err)
  end.

(** *** writeEnvFile *)
Definition writeEnvFile (s : Systemd) (e : gomap) (path : string) : M goerr :=
  let indent := "" in
  match toml_Encode e {| Indent := Some indent |} with
  | inl err => ret (Some err)
  | inr b => writeFile path (generatedTag +:+ b)
  end.

(** The path [NewService] composes for a name. *)
Definition unitFilePath (s : Systemd) (name : string) : string :=
  Join [unitFileDir s; name; ".service"] "".

(** *** NewService

    The environment-file block either returns from the function
    ([Some] of the returned pair) or falls through to the reload. *)
Definition NewService (s : Systemd) (name : string) (uf : UnitFileService)
    (env : gomap) : M (UnitService UnitFileService Systemctl * goerr) :=
  let path := unitFilePath s name in
  r <- loadUnitFileSerivce s path;;
  let '(loaded, isGeneratedBySystemdCd, err) := r in
  if notNil err && negb (IsNotExist err) then ret (UnitService_zero, err)
  else
    err <- (if IsNotExist err then writeUnitFileService s uf path
           else if isGeneratedBySystemdCd then
             if negb (Equals loaded uf) then writeUnitFileService s uf path
             else ret err
           else ret (Some ErrUnitFileNotManaged));;
    if notNil err then ret (UnitService_zero, err)
    else
      returned <-
        match Service_EnvironmentFile uf with
        | Some envPath =>
            r <- loadEnvFile s envPath;;
            let '(loaded, isGeneratedBySystemdCd, err) := r in
            if notNil err && negb (IsNotExist err)
            then ret (Some (UnitService_zero, err))
            else
              err <- (if IsNotExist err then writeEnvFile s env envPath
                     else if isGeneratedBySystemdCd then
                       if negb (DeepEqual env loaded)
                       then writeEnvFile s env envPath
                       else ret err
                     else ret (Some ErrUnitEnvFileNotManaged));;
              if notNil err then ret (Some (UnitService_zero, err))
              else ret None
        | None => ret None
        end;;
      match returned with
      | Some r => ret r
      | None =>
          err <- daemonReload (systemctl s);;
          ret (mkUnitService (systemctl s) name uf path env, err)
      end.

(** *** DeleteService *)
Definition DeleteService (s : Systemd)
    (u : UnitService UnitFileService Systemctl) : M goerr :=
  err <- disable u true;;
  if notNil err then ret err
  else remove (Path u).

(** *** The two reconciliation steps of [NewService]

    [unitFileStep] is the block of [NewService] from the load of the
    unit file to the first [if err != nil] after the three-way branch,
    [envFileStep] the block guarded by [uf.Service.EnvironmentFile != nil];
    each returns the error with which [NewService] would return there
    ([nil] when it goes on).  [NewService_steps] below shows that
    [NewService] is these two steps and then the reload. *)
Definition unitFileStep (s : Systemd) (uf : UnitFileService) (path : string)
  : M goerr :=
  r <- loadUnitFileSerivce s path;;
  let '(loaded, isGeneratedBySystemdCd, err) := r in
  if notNil err && negb (IsNotExist err) then ret err
  else if IsNotExist err then writeUnitFileService s uf path
  else if isGeneratedBySystemdCd then
    if negb (Equals loaded uf) then writeUnitFileService s uf path
    else ret err
  else ret (Some ErrUnitFileNotManaged).

Definition envFileStep (s : Systemd) (uf : UnitFileService) (env : gomap)
  : M goerr :=
  match Service_EnvironmentFile uf with
  | None => ret None
  | Some envPath =>
      r <- loadEnvFile s envPath;;
      let '(loaded, isGeneratedBySystemdCd, err) := r in
      if notNil err && negb (IsNotExist err) then ret err
      else if IsNotExist err then writeEnvFile s env envPath
      else if isGeneratedBySystemdCd then
        if negb (DeepEqual env loaded) then writeEnvFile s env envPath
        else ret err
      else ret (Some ErrUnitEnvFileNotManaged)
  end.

(** *** Replaying a trace

    The file system reached from [f] by the file calls of a trace. *)
Fixpoint replay (t : list event) (f : FS) : FS :=
  match t with
  | [] => f
  | EvMkdir dir :: t' => replay t' (MkdirIfNotExist dir f).1
  | EvWrite path data :: t' => replay t' (WriteFile path data f).1
  | EvRemove path :: t' => replay t' (os_Remove path f).1
  | _ :: t' => replay t' f
  end.

(** Decoders do not answer with a "does not exist" error: they are
    handed a buffer, not a path. *)
Definition decodersSeeNoFiles : Prop :=
  (∀ b, IsNotExist (UnmarshalUnitFile b).2 = false) ∧
  (∀ b, IsNotExist (toml_Decode b).2 = false).

(** What a read of [path] finds: nothing, or a file carrying the tag. *)
Definition absentOrTagged (path : string) (f : FS) : Prop :=
  match ReadFile path f with
  | inl e => IsNotExist (Some e) = true
  | inr c => Contains c generatedTag = true
  end.

End Engine.

Arguments World : clear implicits.
Arguments M : clear implicits.
Arguments Systemd : clear implicits.
Arguments unitFilePath : simpl never.

(** ** What the engine expects of its collaborators

    Laws of a sane file system and of codecs that read back what they
    wrote.  The engine does not need them to run; they are the
    preconditions of the properties that span two calls. *)
Definition isRead (e : event) : bool :=
  match e with EvRead _ => true | _ => false end.

(** The calls [NewService] may make. *)
Definition isReconcileCall (e : event) : bool :=
  match e with
  | EvRead _ | EvWrite _ _ | EvDaemonReload => true
  | EvMkdir _ | EvRemove _ | EvDisable _ _ => false
  end.

Section EngineLaws.

Context {FS Mgr UnitFileService Systemctl : Type}.
Context `{!FileAccessor FS, !UnitFileCodec UnitFileService,
          !TomlCodec, !SystemctlClient Systemctl Mgr,
          !UnitServiceMethods UnitFileService Systemctl Mgr}.

(** A write that reports no error is what the next read of that path
    returns. *)
Definition readsBackWrites : Prop :=
  ∀ (p d : string) (f f' : FS),
    WriteFile p d f = (f', None) → ReadFile p f' = inr d.

(** A write, failed or not, changes what is read at no other path. *)
Definition writesLeaveOthers : Prop :=
  ∀ (p q d : string) (f : FS),
    p ≠ q → ReadFile q (WriteFile p d f).1 = ReadFile q f.

(** Removing a path changes what is read at no other path. *)
Definition removesLeaveOthers : Prop :=
  ∀ (p q : string) (f : FS),
    p ≠ q → ReadFile q (os_Remove p f).1 = ReadFile q f.

(** The unit codec reads a tagged serialization of [uf] back as a model
    equal to [uf]: the tag line is a comment to it. *)
Definition unitRoundTrips (uf : UnitFileService) : Prop :=
  ∀ b2, MarshalUnitFile uf = inr b2 →
        ∃ loaded, UnmarshalUnitFile (generatedTag +:+ b2) = (loaded, None)
                  ∧ Equals loaded uf = true.

(** The TOML codec reads a tagged, unindented encoding of [env] back as
    a map deeply equal to [env]. *)
Definition envRoundTrips (env : gomap) : Prop :=
  ∀ b, toml_Encode env {| Indent := Some "" |} = inr b →
       ∃ loaded, toml_Decode (generatedTag +:+ b) = (loaded, None)
                 ∧ DeepEqual env loaded = true.

End EngineLaws.

(** ** Proof automation: running the code inside a hypothesis

    [run E] takes [E : code w = (v, w', t)] through the branches of the
    code, in program order: an answer of a collaborator that a
    hypothesis fixes is used, any other is split on. *)
Ltac known E :=
  match type of E with
  | context [ReadFile ?p ?f] =>
      match goal with H : ReadFile p f = _ |- _ => rewrite H in E end
  | context [UnmarshalUnitFile ?b] =>
      match goal with H : UnmarshalUnitFile b = _ |- _ => rewrite H in E end
  | context [toml_Decode ?b] =>
      match goal with H : toml_Decode b = _ |- _ => rewrite H in E end
  | context [Contains ?c generatedTag] =>
      match goal with
      | H : Contains c generatedTag = _ |- _ => rewrite H in E
      end
  | context [Equals ?a ?b] =>
      match goal with H : Equals a b = _ |- _ => rewrite H in E end
  | context [DeepEqual ?a ?b] =>
      match goal with H : DeepEqual a b = _ |- _ => rewrite H in E end
  | context [MarshalUnitFile ?u] =>
      match goal with H : MarshalUnitFile u = _ |- _ => rewrite H in E end
  | context [WriteFile ?p ?d ?f] =>
      match goal with H : WriteFile p d f = _ |- _ => rewrite H in E end
  | context [Service_EnvironmentFile ?u] =>
      match goal with
      | H : Service_EnvironmentFile u = _ |- _ => rewrite H in E
      end
  | context [toml_Encode ?e ?o] =>
      match goal with H : toml_Encode e o = _ |- _ => rewrite H in E end
  | context [MkdirIfNotExist ?d ?f] =>
      match goal with H : MkdirIfNotExist d f = _ |- _ => rewrite H in E end
  | context [UnitService_Disable ?u ?b ?m] =>
      match goal with
      | H : UnitService_Disable u b m = _ |- _ => rewrite H in E
      end
  | context [os_Remove ?p ?f] =>
      match goal with H : os_Remove p f = _ |- _ => rewrite H in E end
  | context [DaemonReload ?c ?m] =>
      match goal with H : DaemonReload c m = _ |- _ => rewrite H in E end
  end.

Ltac branch E :=
  match type of E with
  | context [match ?x with _ => _ end] => is_var x; destruct x
  | context [notNil ?o] => is_var o; destruct o
  | context [IsNotExist ?o] => is_var o; destruct o
  | context [ReadFile ?p ?f] => destruct (ReadFile p f) eqn:?
  | context [UnmarshalUnitFile ?b] =>
      destruct (UnmarshalUnitFile b) as [? ?] eqn:?
  | context [toml_Decode ?b] => destruct (toml_Decode b) as [? ?] eqn:?
  | context [Contains ?c generatedTag] =>
      destruct (Contains c generatedTag) eqn:?
  | context [Equals ?a ?b] => destruct (Equals a b) eqn:?
  | context [DeepEqual ?a ?b] => destruct (DeepEqual a b) eqn:?
  | context [MarshalUnitFile ?u] => destruct (MarshalUnitFile u) eqn:?
  | context [WriteFile ?p ?d ?f] =>
      destruct (WriteFile p d f) as [? ?] eqn:?
  | context [Service_EnvironmentFile ?u] =>
      destruct (Service_EnvironmentFile u) eqn:?
  | context [toml_Encode ?e ?o] => destruct (toml_Encode e o) eqn:?
  | context [MkdirIfNotExist ?d ?f] =>
      destruct (MkdirIfNotExist d f) as [? ?] eqn:?
  | context [UnitService_Disable ?u ?b ?m] =>
      destruct (UnitService_Disable u b m) as [? ?] eqn:?
  | context [os_Remove ?p ?f] => destruct (os_Remove p f) as [? ?] eqn:?
  | context [DaemonReload ?c ?m] =>
      destruct (DaemonReload c m) as [? ?] eqn:?
  end.

Ltac run E :=
  unfold NewService, DeleteService, New, unitFileStep, envFileStep,
    loadUnitFileSerivce, loadEnvFile, writeUnitFileService, writeEnvFile,
    readFile, writeFile, remove, daemonReload,
    disable, mkdirIfNotExist, bind, ret in E;
  repeat (simpl in E; first [known E | branch E]);
  simpl in E.

(** The same code seen again in the goal takes the same branches. *)
Ltac agree :=
  unfold NewService, DeleteService, New, unitFileStep, envFileStep,
    loadUnitFileSerivce, loadEnvFile, writeUnitFileService, writeEnvFile,
    readFile, writeFile, remove, daemonReload,
    disable, mkdirIfNotExist, bind, ret, value, world, trace;
  repeat (simpl;
          match goal with
          | H : ?l = _ |- context [?l] => rewrite H
          end);
  simpl; try reflexivity.

(** Name the outcome of a call and run it. *)
Ltac outcome c E :=
  let v := fresh "v" in
  let w' := fresh "w'" in
  let t := fresh "t" in
  destruct c as [[v w'] t] eqn:E;
  unfold value, world, trace in *; simpl in *;
  run E; injection E as <- <- <-.

(** A decoder's "does not exist" answer contradicts [decodersSeeNoFiles]. *)
Ltac decoders H :=
  try match goal with
      | E : UnmarshalUnitFile ?b = (_, Some (ErrNotExist _)) |- _ =>
          let X := fresh in
          pose proof (proj1 H b) as X; rewrite E in X; discriminate X
      | E : toml_Decode ?b = (_, Some (ErrNotExist _)) |- _ =>
          let X := fresh in
          pose proof (proj2 H b) as X; rewrite E in X; discriminate X
      end.

(** The first positions of a short trace. *)
Ltac positions i :=
  destruct i as [|[|[|[|[|[|?]]]]]]; simpl; try discriminate.

(** ** An in-memory host

    Small collaborators on which the engine runs: files in a finite map,
    a line-based unit-file format, a [key=value] environment format and a
    manager that counts what it is asked.  The examples and the
    counterexamples below are evaluated on it. *)
Module Host.

Definition LF : ascii := "010"%char.

(** A file system: path to content.  Nothing can be written under
    [/proc/]. *)
#[export] Instance memFiles : FileAccessor (gmap string string) := {|
  MkdirIfNotExist dir f := (f, None);
  ReadFile path f :=
    match f !! path with
    | Some c => inr c
    | None => inl (ErrNotExist path)
    end;
  WriteFile path data f :=
    if HasPrefix path "/proc/"
    then (f, Some (ErrOther "read-only file system"))
    else (<[path:=data]> f, None);
  os_Remove path f :=
    match f !! path with
    | Some _ => (delete path f, None)
    | None => (f, Some (ErrNotExist path))
    end
|}.

Fixpoint linesOf (s : string) : list string :=
  match s with
  | EmptyString => [EmptyString]
  | String c s' =>
      if Ascii.eqb c LF then EmptyString :: linesOf s'
      else match linesOf s' with
           | l :: ls => String c l :: ls
           | [] => [String c EmptyString]
           end
  end.

Fixpoint dropString (n : nat) (s : string) : string :=
  match n, s with
  | S n', String _ s' => dropString n' s'
  | _, _ => s
  end.

(** The text before the first [sep] and the text after it. *)
Fixpoint cutAt (sep : ascii) (s : string) : option (string * string) :=
  match s with
  | EmptyString => None
  | String c s' =>
      if Ascii.eqb c sep then Some (EmptyString, s')
      else match cutAt sep s' with
           | Some (l, r) => Some (String c l, r)
           | None => None
           end
  end.

(** A unit model with the two fields the examples use. *)
Record unitModel : Type := mkUnit {
  Description : string;
  EnvironmentFile : option string
}.

#[export] Instance unitModel_eq_dec : EqDecision unitModel.
Proof. solve_decision. Defined.

Definition marshalUnit (u : unitModel) : error + string :=
  if negb (noLineFeed (Description u))
  then inl (ErrOther "line feed in Description")
  else
    inr ("[Service]" +:+ String LF
           ("Description=" +:+ Description u +:+ String LF
              (match EnvironmentFile u with
               | Some p => "EnvironmentFile=" +:+ p +:+ String LF EmptyString
               | None => EmptyString
               end))).

Definition unitLine (acc : unitModel * goerr) (line : string)
  : unitModel * goerr :=
  let '(u, err) := acc in
  if notNil err then acc
  else if String.eqb line "" || HasPrefix line "#" || HasPrefix line "["
  then acc
  else if HasPrefix line "Description="
  then (mkUnit (dropString 12 line) (EnvironmentFile u), None)
  else if HasPrefix line "EnvironmentFile="
  then (mkUnit (Description u) (Some (dropString 16 line)), None)
  else (u, Some (ErrOther ("cannot parse line: " +:+ line))).

Definition unmarshalUnit (b : string) : unitModel * goerr :=
  fold_left unitLine (linesOf b) (mkUnit "" None, None).

#[export] Instance unitCodec : UnitFileCodec unitModel := {|
  UnitFileService_zero := mkUnit "" None;
  Service_EnvironmentFile := EnvironmentFile;
  Equals a b := bool_decide (a = b);
  MarshalUnitFile := marshalUnit;
  UnmarshalUnitFile := unmarshalUnit
|}.

(** The environment format: one [key=value] per line. *)
Definition encodeEnv (e : gomap) (o : EncodeOption) : error + string :=
  match e with
  | None => inr EmptyString
  | Some g =>
      inr (String.concat ""
             (map (λ kv : string * string,
                     kv.1 +:+ "=" +:+ kv.2 +:+ String LF EmptyString)
                  (map_to_list g)))
  end.

Definition envLine (acc : gmap string string * goerr) (line : string)
  : gmap string string * goerr :=
  let '(g, err) := acc in
  if notNil err then acc
  else if String.eqb line "" || HasPrefix line "#" then acc
  else match cutAt "="%char line with
       | Some (k, v) => (<[k:=v]> g, None)
       | None => (g, Some (ErrOther ("expected key=value: " +:+ line)))
       end.

(** Decoding allocates the map, also for a text without keys. *)
Definition decodeEnv (b : string) : gomap * goerr :=
  let '(g, err) := fold_left envLine (linesOf b) (∅, None) in
  (Some g, err).

#[export] Instance envCodec : TomlCodec := {|
  toml_Decode := decodeEnv;
  toml_Encode := encodeEnv
|}.

(** The manager: how often it reloaded, which units it disabled, and
    whether it can be reached at all. *)
Record manager : Type := mkManager {
  reloads : nat;
  disabled : list string;
  reachable : bool
}.

Inductive bus : Type := NoBus | SystemBus.

#[export] Instance busClient : SystemctlClient bus manager := {|
  Systemctl_nil := NoBus;
  DaemonReload c m :=
    if reachable m
    then (mkManager (S (reloads m)) (disabled m) true, None)
    else (m, Some (ErrOther "failed to connect to bus"))
|}.

#[export] Instance unitMethods : UnitServiceMethods unitModel bus manager := {|
  UnitService_Disable u now m :=
    if reachable m
    then (mkManager (reloads m) (Name u :: disabled m) true, None)
    else (m, Some (ErrOther "failed to connect to bus"))
|}.

Abbreviation host := (World (gmap string string) manager).

Definition emptyHost : host := mkWorld ∅ (mkManager 0 [] true).

Definition unreachable (w : host) : host :=
  mkWorld (fs w) (mkManager (reloads (mgr w)) (disabled (mgr w)) false).

(** The scenario of the specification: service [worker] under
    [/run/units/] with an environment file. *)
Definition units : Systemd bus := mkSystemd SystemBus "/run/units/".

Definition worker : unitModel :=
  mkUnit "worker" (Some "/etc/worker.env").

Definition workerEnv : gomap := Some {[ "PORT" := "8080" ]}.

Definition workerHost : host :=
  world (NewService units "worker" worker workerEnv emptyHost).


(** Somebody's notes and somebody's unit file at the worker's path;
    neither carries the tag, and the first is no unit file at all. *)
Definition notesHost : host :=
  mkWorld {[ "/run/units/worker.service" := "notes on the worker" ]}
          (mkManager 0 [] true).

Definition foreignUnit : string :=
  "[Service]" +:+ String LF ("Description=theirs" +:+ String LF "").

Definition foreignHost : host :=
  mkWorld {[ "/run/units/worker.service" := foreignUnit ]}
          (mkManager 0 [] true).

(** A unit without an environment file. *)
Definition plain : unitModel := mkUnit "plain" None.

End Host.

(** ** More hosts

    Further states of the in-memory host, and a disk on which nothing
    can be read. *)
Module HostMore.
Import Host.

(** The worker's unit file after somebody put a line above the tag and
    changed the description. *)
Definition editedAbove : string := "# edited by hand" +:+ String LF "".

Definition editedBelow : string :=
  "[Service]" +:+ String LF ("Description=old" +:+ String LF "").

Definition editedHost : host :=
  mkWorld {[ "/run/units/worker.service" :=
               editedAbove +:+ generatedTag +:+ editedBelow ]}
          (mkManager 0 [] true).

(** No unit file yet, and somebody's environment file. *)
Definition foreignEnvHost : host :=
  mkWorld {[ "/etc/worker.env" := "PORT=1" +:+ String LF "" ]}
          (mkManager 0 [] true).

(** The worker's unit file, generated and then damaged. *)
Definition damagedHost : host :=
  mkWorld {[ "/run/units/worker.service" :=
               generatedTag +:+ "Descripti" ]}
          (mkManager 0 [] true).

(** A description that the unit format cannot hold. *)
Definition twoLines : unitModel :=
  mkUnit ("first" +:+ String LF "second") None.

(** Units kept where nothing can be written. *)
Definition procUnits : Systemd bus := mkSystemd SystemBus "/proc/units/".

(** What the host's unit codec makes of the worker. *)
Definition workerText : string :=
  "[Service]" +:+ String LF
    ("Description=worker" +:+ String LF
       ("EnvironmentFile=/etc/worker.env" +:+ String LF "")).

(** A disk whose every read fails with the package's own
    [ErrNoSuchFileOrDir], and that takes no write. *)
Inductive brokenDisk : Type := BrokenDisk.

#[export] Instance brokenFiles : FileAccessor brokenDisk := {|
  MkdirIfNotExist dir f := (f, None);
  ReadFile path f := inl ErrNoSuchFileOrDir;
  WriteFile path data f := (f, Some (ErrOther "input/output error"));
  os_Remove path f := (f, Some (ErrOther "input/output error"))
|}.

Definition brokenHost : World brokenDisk manager :=
  mkWorld BrokenDisk (mkManager 0 [] true).

End HostMore.

Module HostExamples.
Import Host.

Example worker_first_call :
  trace (NewService units "worker" worker workerEnv emptyHost) =
    [ EvRead "/run/units/worker.service";
      EvWrite "/run/units/worker.service"
        (generatedTag +:+ "[Service]" +:+ String LF
           ("Description=worker" +:+ String LF
              ("EnvironmentFile=/etc/worker.env" +:+ String LF "")));
      EvRead "/etc/worker.env";
      EvWrite "/etc/worker.env"
        (generatedTag +:+ "PORT=8080" +:+ String LF "");
      EvDaemonReload ].
Proof. vm_compute. reflexivity. Qed.

Example worker_second_call :
  let r := NewService units "worker" worker workerEnv workerHost in
  trace r =
    [ EvRead "/run/units/worker.service"; EvRead "/etc/worker.env";
      EvDaemonReload ]
  ∧ value r =
      (mkUnitService SystemBus "worker" worker "/run/units/worker.service"
         workerEnv, None)
  ∧ fs (world r) = fs workerHost
  ∧ reloads (mgr (world r)) = 2.
Proof. intros r. repeat apply conj; vm_compute; reflexivity. Qed.

End HostExamples.

(** * Properties *)

(** ** Go strings *)
Section GoStringFacts.

Lemma append_assoc (a b c : string) : (a +:+ b) +:+ c = a +:+ (b +:+ c).
Proof.
  induction a as [|x a IH]; [reflexivity |].
  exact (f_equal (String x) IH).
Qed.

Lemma append_empty_r (a : string) : a +:+ "" = a.
Proof.
  induction a as [|x a IH]; [reflexivity |].
  exact (f_equal (String x) IH).
Qed.

Lemma length_append (a b : string) :
  String.length (a +:+ b) = String.length a + String.length b.
Proof.
  induction a as [|x a IH]; [reflexivity |].
  exact (f_equal S IH).
Qed.

Lemma HasPrefix_spec (s p : string) :
  HasPrefix s p = true ↔ ∃ r, s = p +:+ r.
Proof.
  revert s. induction p as [|c p IH]; intros s; simpl.
  - split; [intros _; by exists s | done].
  - destruct s as [|d s].
    + split; [done | intros [r Hr]; discriminate Hr].
    + rewrite andb_true_iff, Ascii.eqb_eq, IH. split.
      * intros [-> [r ->]]. by exists r.
      * intros [r Hr]. injection Hr as -> ->. split; [done | by exists r].
Qed.

Lemma HasPrefix_append (p r : string) : HasPrefix (p +:+ r) p = true.
Proof. apply HasPrefix_spec. by exists r. Qed.

Lemma Contains_spec (s sub : string) :
  Contains s sub = true ↔ ∃ a b, s = a +:+ sub +:+ b.
Proof.
  induction s as [|c s IH]; simpl; rewrite orb_true_iff, HasPrefix_spec.
  - split.
    + intros [[r Hr] | ?]; [| done]. exists "", r. exact Hr.
    + intros (a & b & Hab). left. destruct a; [by exists b | discriminate].
  - rewrite IH. split.
    + intros [[r Hr] | (a & b & ->)].
      * exists "", r. exact Hr.
      * by exists (String c a), b.
    + intros (a & b & Hab). destruct a as [|x a]; simpl in Hab.
      * left. by exists b.
      * right. injection Hab as -> ->. by exists a, b.
Qed.

(** Whatever follows the tag, a text that starts with it contains it. *)
Lemma Contains_tagged (b : string) :
  Contains (generatedTag +:+ b) generatedTag = true.
Proof. apply Contains_spec. by exists "", b. Qed.

Lemma substring_whole (b : string) :
  String.substring 0 (String.length b) b = b.
Proof.
  induction b as [|y b IHb]; [reflexivity |].
  exact (f_equal (String y) IHb).
Qed.

Lemma substring_append_r (a b : string) :
  String.substring (String.length a) (String.length b) (a +:+ b) = b.
Proof.
  induction a as [|x a IH]; [apply substring_whole | exact IH].
Qed.

Lemma HasSuffix_append (a suffix : string) :
  HasSuffix (a +:+ suffix) suffix = true.
Proof.
  unfold HasSuffix. rewrite length_append.
  replace (String.length a + String.length suffix - String.length suffix)
    with (String.length a) by lia.
  rewrite substring_append_r, String.eqb_refl, andb_true_r.
  apply Nat.leb_le. lia.
Qed.

Lemma substring_split (n : nat) (s : string) :
  (n ≤ String.length s)%nat →
  ∃ a, s = a +:+ String.substring n (String.length s - n) s
       ∧ String.length a = n.
Proof.
  revert s. induction n as [|n IH]; intros s Hn.
  - exists "". split; [| reflexivity].
    rewrite Nat.sub_0_r, substring_whole. reflexivity.
  - destruct s as [|c s]; simpl in Hn; [lia |].
    destruct (IH s) as (a & Ha & Hl); [lia |].
    exists (String c a).
    split; [exact (f_equal (String c) Ha) | exact (f_equal S Hl)].
Qed.

Lemma HasSuffix_spec (s suffix : string) :
  HasSuffix s suffix = true ↔ ∃ a, s = a +:+ suffix.
Proof.
  split.
  - unfold HasSuffix. rewrite andb_true_iff, Nat.leb_le, String.eqb_eq.
    intros [Hle Hsub].
    destruct (substring_split (String.length s - String.length suffix) s)
      as (a & Ha & _); [lia |].
    replace (String.length s - (String.length s - String.length suffix))
      with (String.length suffix) in Ha by lia.
    rewrite Hsub in Ha. by exists a.
  - intros [a ->]. apply HasSuffix_append.
Qed.

Lemma Join_three (a b c : string) : Join [a; b; c] "" = a +:+ b +:+ c.
Proof. reflexivity. Qed.

(** The tag is one line: cutting a tagged text at its first line feed
    gives the tag's text and the rest. *)
Lemma cutLine_tagged (b : string) :
  cutLine (generatedTag +:+ b) = ("#! Generated by systemd-cd", b).
Proof. reflexivity. Qed.

End GoStringFacts.

(** ** reflect.DeepEqual on environment maps *)
Section DeepEqualFacts.

Lemma DeepEqual_eq (a b : gomap) : DeepEqual a b = true ↔ a = b.
Proof.
  destruct a as [x|], b as [y|]; simpl; try (split; congruence).
  rewrite andb_true_iff, Nat.eqb_eq, forallb_forall. split.
  - intros [Hsize Hall]. f_equal.
    apply map_subseteq_size_eq; [| lia].
    apply map_subseteq_spec. intros k v Hk.
    specialize (Hall (k, v)). simpl in Hall.
    eapply bool_decide_eq_true_1, Hall.
    apply list_elem_of_In, elem_of_map_to_list. exact Hk.
  - intros [= ->]. split; [reflexivity |].
    intros [k v] Hin. apply bool_decide_eq_true_2. simpl.
    by apply elem_of_map_to_list, list_elem_of_In.
Qed.


Lemma DeepEqual_same_entries (a b : gomap) :
  DeepEqual a b = true → same_entries a b.
Proof. rewrite DeepEqual_eq. by intros ->. Qed.


End DeepEqualFacts.

(** ** The engine *)
Section EngineFacts.

Context {FS Mgr UnitFileService Systemctl : Type}.
Context `{!FileAccessor FS, !UnitFileCodec UnitFileService,
          !TomlCodec, !SystemctlClient Systemctl Mgr,
          !UnitServiceMethods UnitFileService Systemctl Mgr}.

Implicit Types (s : Systemd Systemctl) (uf : UnitFileService)
  (env : gomap) (w : World FS Mgr) (name path : string).

Lemma NewService_steps s name uf env w :
  NewService s name uf env w =
    let path := unitFilePath s name in
    let '(e1, w1, t1) := unitFileStep s uf path w in
    if notNil e1 then ((UnitService_zero, e1), w1, t1)
    else
      let '(e2, w2, t2) := envFileStep s uf env w1 in
      if notNil e2 then ((UnitService_zero, e2), w2, t1 ++ t2)
      else
        let '(e3, w3, t3) := daemonReload (systemctl s) w2 in
        ((mkUnitService (systemctl s) name uf path env, e3), w3,
          t1 ++ t2 ++ t3).
Proof.
  outcome (NewService s name uf env w) E; agree.
Qed.

(** The trace accounts for every change to the files. *)
Lemma NewService_replay s name uf env w :
  let r := NewService s name uf env w in
  fs (world r) = replay (trace r) (fs w).
Proof.
  intros r. subst r. outcome (NewService s name uf env w) E; agree.
Qed.

(** C1. Ownership invariant: each write that [NewService] issues goes
    to a path at which, in the file system as it is just before that
    write, a read finds no file or a file whose content contains the
    ownership tag.  A file that is there without the tag is never
    written. *)
Theorem NewService_writes_only_absent_or_tagged
    s name uf env w (i : nat) (p d : string) :
  decodersSeeNoFiles →
  trace (NewService s name uf env w) !! i = Some (EvWrite p d) →
  absentOrTagged p
    (replay (take i (trace (NewService s name uf env w))) (fs w)).
Proof.
  intros Hdec. unfold absentOrTagged.
  outcome (NewService s name uf env w) E; decoders Hdec;
    positions i; intros [= <- <-]; agree.
Qed.

(** C2, as the code has it.  A file at the unit-file path that lacks
    the ownership tag is never written: [NewService] reads it, returns
    the zero handle and leaves the host as it was.  The error is
    [ErrUnitFileNotManaged] when the content decodes; when it does not,
    the decoder's error is returned instead. *)
Theorem NewService_refuses_foreign_unit_file s name uf env w (c : string) :
  ReadFile (unitFilePath s name) (fs w) = inr c →
  Contains c generatedTag = false →
  IsNotExist (UnmarshalUnitFile c).2 = false →
  let r := NewService s name uf env w in
  value r =
    (UnitService_zero,
     Some match (UnmarshalUnitFile c).2 with
          | None => ErrUnitFileNotManaged
          | Some decodeError => decodeError
          end)
  ∧ trace r = [EvRead (unitFilePath s name)]
  ∧ world r = w.
Proof.
  intros Hread Htag Hdec r. subst r.
  destruct (UnmarshalUnitFile c) as [u o] eqn:Hu. simpl in Hdec.
  outcome (NewService s name uf env w) E; try done.
  all: by destruct w.
Qed.


(** C4, as the code has it.  Either [NewService] returns before the
    reload, and then with an error and the zero handle; or it reaches
    the reload, as its last call, and then it returns the full handle
    together with whatever the reload returned, an error included. *)
Theorem NewService_handle s name uf env w :
  let r := NewService s name uf env w in
  (count isReload (trace r) = 0
   ∧ (value r).1 = UnitService_zero
   ∧ notNil (value r).2 = true)
  ∨
  (∃ t, trace r = t ++ [EvDaemonReload]
        ∧ count isReload t = 0
        ∧ (value r).1 =
            mkUnitService (systemctl s) name uf (unitFilePath s name) env
        ∧ (value r).2 = (DaemonReload (systemctl s) (mgr w)).2).
Proof.
  intros r. subst r.
  outcome (NewService s name uf env w) E;
    first
      [ by left
      | right;
        match goal with
        | |- ∃ t, ?l = _ ∧ _ => exists (removelast l)
        end; agree; done ].
Qed.

(** C5. Deletion order: [DeleteService] first asks the manager to
    disable the unit, stopping it now.  If that fails it returns the
    manager's error, removes nothing and leaves the files as they are;
    only after a successful disable does it remove the file at the
    handle's path. *)
Theorem DeleteService_disables_first s (u : UnitService UnitFileService Systemctl) w :
  let r := DeleteService s u w in
  match (UnitService_Disable u true (mgr w)).2 with
  | Some disableError =>
      value r = Some disableError
      ∧ trace r = [EvDisable (Name u) true]
      ∧ fs (world r) = fs w
  | None =>
      trace r = [EvDisable (Name u) true; EvRemove (Path u)]
      ∧ value r = (os_Remove (Path u) (fs w)).2
      ∧ fs (world r) = (os_Remove (Path u) (fs w)).1
  end.
Proof.
  intros r. subst r.
  outcome (DeleteService s u w) E; done.
Qed.

(** C6. Creation from absence: when no file is at the unit-file path
    and the desired model marshals to [b2], the first call after the
    read is the write, to that path, of the tag line followed by [b2];
    no other write goes to that path, unless the model names it as its
    own environment file.  The first line of what is written is the
    tag's text, and the rest decodes to the desired model when the codec
    round-trips it. *)
Theorem NewService_creates_tagged_unit_file
    s name uf env w (e : error) (b2 : string) :
  ReadFile (unitFilePath s name) (fs w) = inl e →
  IsNotExist (Some e) = true →
  MarshalUnitFile uf = inr b2 →
  UnmarshalUnitFile b2 = (uf, None) →
  let r := NewService s name uf env w in
  let path := unitFilePath s name in
  let data := generatedTag +:+ b2 in
  (∃ t, trace r = EvRead path :: EvWrite path data :: t
        ∧ ∀ d, EvWrite path d ∈ t → Service_EnvironmentFile uf = Some path)
  ∧ HasPrefix data generatedTag = true
  ∧ (cutLine data).1 = "#! Generated by systemd-cd"
  ∧ UnmarshalUnitFile (cutLine data).2 = (uf, None).
Proof.
  intros Hread Hne Hm Hrt r path data. subst r path data.
  rewrite cutLine_tagged, HasPrefix_append. simpl.
  split; [| by rewrite Hrt].
  outcome (NewService s name uf env w) E; try done;
    eexists; (split; [reflexivity |]);
    intros d Hd;
    repeat (apply elem_of_cons in Hd as [Hd | Hd]; simplify_eq; try done);
    by apply elem_of_nil in Hd.
Qed.

(** C8. Reload: a call of [NewService] that returns no error has
    invoked the reload exactly once (also when neither step wrote
    anything), and a call in which the unit-file step or the
    environment-file step failed has not invoked it. *)
Theorem NewService_reloads_once_on_success s name uf env w :
  let r := NewService s name uf env w in
  let u := unitFileStep s uf (unitFilePath s name) w in
  let e := envFileStep s uf env (world u) in
  ((value r).2 = None → count isReload (trace r) = 1)
  ∧ (notNil (value u) = true → count isReload (trace r) = 0)
  ∧ (notNil (value u) = false → notNil (value e) = true →
     count isReload (trace r) = 0)
  ∧ (notNil (value u) = false → notNil (value e) = false →
     count isReload (trace r) = 1).
Proof.
  intros r u e. subst r u e. rewrite NewService_steps. simpl.
  destruct (unitFileStep s uf (unitFilePath s name) w) as [[e1 w1] t1] eqn:E1.
  unfold value, world, trace. simpl.
  assert (count isReload t1 = 0) as H1.
  { run E1; injection E1 as <- <- <-; done. }
  destruct (envFileStep s uf env w1) as [[e2 w2] t2] eqn:E2. simpl.
  assert (count isReload t2 = 0) as H2.
  { run E2; injection E2 as <- <- <-; done. }
  assert (∀ a b, count isReload (a ++ b) = count isReload a + count isReload b)
    as Happ.
  { intros a b. unfold count. by rewrite filter_app, length_app. }
  destruct e1 as [x1|]; simpl; [by rewrite H1 |].
  destruct e2 as [x2|]; simpl; [by rewrite Happ, H1, H2 |].
  unfold daemonReload.
  destruct (DaemonReload (systemctl s) (mgr w2)) as [m e3]. simpl.
  rewrite !Happ, H1, H2. done.
Qed.

(** C9. Environment coupling: when the desired model names no
    environment file, every file call of [NewService] is on the
    unit-file path, and calls, result and final host are the same for
    every environment map supplied. *)
Theorem NewService_without_environment_file s name uf env env' w :
  Service_EnvironmentFile uf = None →
  let r := NewService s name uf env w in
  let r' := NewService s name uf env' w in
  Forall (λ e, ∀ p, filePath e = Some p → p = unitFilePath s name) (trace r)
  ∧ trace r = trace r'
  ∧ world r = world r'
  ∧ (value r).2 = (value r').2.
Proof.
  intros Hef r r'. subst r r'.
  outcome (NewService s name uf env w) E; agree;
    (split; [| done]);
    repeat (apply Forall_cons; split; [by intros ? [= <-] |]);
    apply Forall_nil_2.
Qed.

(** C10. Paths: a [Systemd] that [New] returns without error holds the
    directory it was given, with [/] appended when it did not end in one,
    so a directory that ends in [/].  For every name, the empty one
    included, [NewService] starts by reading the plain concatenation of
    that directory, the name and [.service], and a handle it fills in
    carries that path. *)
Theorem New_unit_file_path
    (c : Systemctl) (dir : string) w0 (sd : Systemd Systemctl) :
  value (New c dir w0) = (sd, None) →
  unitFileDir sd = (if HasSuffix dir "/" then dir else dir +:+ "/")
  ∧ HasSuffix (unitFileDir sd) "/" = true
  ∧ (∀ name, unitFilePath sd name = unitFileDir sd +:+ name +:+ ".service")
  ∧ unitFilePath sd "" = unitFileDir sd +:+ ".service"
  ∧ ∀ name uf env w,
      let r := NewService sd name uf env w in
      (∃ t, trace r = EvRead (unitFileDir sd +:+ name +:+ ".service") :: t)
      ∧ ((value r).1 = UnitService_zero
         ∨ Path (value r).1 = unitFileDir sd +:+ name +:+ ".service").
Proof.
  intros HNew.
  assert (unitFileDir sd = (if HasSuffix dir "/" then dir else dir +:+ "/"))
    as Hdir.
  { revert HNew. outcome (New c dir w0) E; try done.
    intros [= <-]. simpl. by destruct (HasSuffix dir "/"). }
  split; [exact Hdir |]. split.
  { rewrite Hdir. destruct (HasSuffix dir "/") eqn:Hs; [exact Hs |].
    apply HasSuffix_append. }
  split; [intros name; apply Join_three |].
  split; [apply Join_three |].
  intros name uf env w r. subst r.
  rewrite <- (Join_three (unitFileDir sd) name ".service").
  change (Join [unitFileDir sd; name; ".service"] "")
    with (unitFilePath sd name).
  outcome (NewService sd name uf env w) E;
    (split; [by eexists | first [by left | by right]]).
Qed.



(** Whatever a decoder makes of a text without keys, nil or an
    allocated map, some desired map has the same (no) entries and is not
    deeply equal to it. *)
Lemma DeepEqual_tells_nil_from_empty (loaded : gomap) :
  (∀ k, gomap_lookup loaded k = None) →
  ∃ env, same_entries env loaded ∧ DeepEqual env loaded = false.
Proof.
  intros Hno. destruct loaded as [y|].
  - exists None. split; [intros k; by rewrite Hno | reflexivity].
  - exists (Some ∅). split; [| reflexivity].
    intros k. simpl. by rewrite lookup_empty.
Qed.

End EngineFacts.

(** ** More of the engine *)
Section EngineMore.

Context {FS Mgr UnitFileService Systemctl : Type}.
Context `{!FileAccessor FS, !UnitFileCodec UnitFileService,
          !TomlCodec, !SystemctlClient Systemctl Mgr,
          !UnitServiceMethods UnitFileService Systemctl Mgr}.

Implicit Types (s : Systemd Systemctl) (uf : UnitFileService)
  (env : gomap) (w : World FS Mgr) (name path : string).

(** X1. Update on change: a file at the unit-file path that contains
    the tag anywhere in its text, decodes, and decodes to a model that is
    not equal to the desired one is overwritten: right after the read,
    [NewService] writes the tag line followed by the marshalled desired
    model to that path. *)
Theorem NewService_overwrites_changed_unit_file
    s name uf env w (before after b2 : string) (loaded : UnitFileService) :
  ReadFile (unitFilePath s name) (fs w)
    = inr (before +:+ generatedTag +:+ after) →
  UnmarshalUnitFile (before +:+ generatedTag +:+ after) = (loaded, None) →
  Equals loaded uf = false →
  MarshalUnitFile uf = inr b2 →
  let r := NewService s name uf env w in
  let path := unitFilePath s name in
  ∃ t, trace r = EvRead path :: EvWrite path (generatedTag +:+ b2) :: t.
Proof.
  intros Hread Hdec Hne Hm r path. subst r path.
  assert (Contains (before +:+ generatedTag +:+ after) generatedTag = true)
    as Htag by (apply Contains_spec; by exists before, after).
  outcome (NewService s name uf env w) E; by eexists.
Qed.

(** X2. A unit-file read error that is not a "does not exist" error is
    returned as it is, with the zero handle; nothing is written and
    nothing else is called.  The package's own [ErrNoSuchFileOrDir] is
    such an error: it does not make [NewService] create the file. *)
Theorem NewService_unit_read_error s name uf env w (e : error) :
  ReadFile (unitFilePath s name) (fs w) = inl e →
  IsNotExist (Some e) = false →
  let r := NewService s name uf env w in
  value r = (UnitService_zero, Some e)
  ∧ trace r = [EvRead (unitFilePath s name)]
  ∧ world r = w.
Proof.
  intros Hread Hne r. subst r.
  outcome (NewService s name uf env w) E; try done.
  all: by destruct w.
Qed.

(** X3. An encode error stops the creation before any write: when no
    file is at the unit-file path and the desired model does not marshal,
    [NewService] returns the codec's error and the zero handle, and the
    host is as it was (no empty or partial file, no environment file
    read, no reload). *)
Theorem NewService_marshal_error_writes_nothing
    s name uf env w (e encodeError : error) :
  ReadFile (unitFilePath s name) (fs w) = inl e →
  IsNotExist (Some e) = true →
  MarshalUnitFile uf = inl encodeError →
  let r := NewService s name uf env w in
  value r = (UnitService_zero, Some encodeError)
  ∧ trace r = [EvRead (unitFilePath s name)]
  ∧ world r = w.
Proof.
  intros Hread Hne Hm r. subst r.
  outcome (NewService s name uf env w) E; try done.
  all: by destruct w.
Qed.

(** X4. A foreign environment file is refused without undoing the
    unit-file step: when the unit-file step went through and the
    environment file the model names is there without the tag,
    [NewService] reads it and returns the zero handle with
    [ErrUnitEnvFileNotManaged] (or with the decoder's error when the text
    does not decode).  It writes nothing more and does not reload; what
    the unit-file step wrote stays written. *)
Theorem NewService_refuses_foreign_env_file
    s name uf env w (envPath c : string) :
  let u := unitFileStep s uf (unitFilePath s name) w in
  value u = None →
  Service_EnvironmentFile uf = Some envPath →
  ReadFile envPath (fs (world u)) = inr c →
  Contains c generatedTag = false →
  IsNotExist (toml_Decode c).2 = false →
  let r := NewService s name uf env w in
  value r =
    (UnitService_zero,
     Some match (toml_Decode c).2 with
          | None => ErrUnitEnvFileNotManaged
          | Some decodeError => decodeError
          end)
  ∧ trace r = trace u ++ [EvRead envPath]
  ∧ world r = world u.
Proof.
  intros u Hu Hef Hread Htag Hdec r. subst u r.
  rewrite NewService_steps. simpl.
  destruct (unitFileStep s uf (unitFilePath s name) w) as [[e1 w1] t1].
  unfold value, world, trace in *. simpl in *. subst e1. simpl.
  destruct (toml_Decode c) as [loaded o] eqn:Hd. simpl in Hdec.
  outcome (envFileStep s uf env w1) E; try done.
  all: by destruct w1.
Qed.

(** X5. Creation of the environment file: when the unit-file step went
    through and no file is at the path the model names, [NewService]
    writes there the tag line followed by the unindented encoding of the
    desired map, and reloads only if that write reported no error.  The
    first line of what is written is the tag's text, the rest is the
    encoding. *)
Theorem NewService_creates_tagged_env_file
    s name uf env w (envPath b : string) (e : error) :
  let u := unitFileStep s uf (unitFilePath s name) w in
  value u = None →
  Service_EnvironmentFile uf = Some envPath →
  ReadFile envPath (fs (world u)) = inl e →
  IsNotExist (Some e) = true →
  toml_Encode env {| Indent := Some "" |} = inr b →
  let r := NewService s name uf env w in
  let data := generatedTag +:+ b in
  let written := WriteFile envPath data (fs (world u)) in
  trace r =
    trace u ++ EvRead envPath :: EvWrite envPath data
            :: (if notNil written.2 then [] else [EvDaemonReload])
  ∧ fs (world r) = written.1
  ∧ cutLine data = ("#! Generated by systemd-cd", b).
Proof.
  intros u Hu Hef Hread Hne Henc r data written. subst u r data written.
  rewrite cutLine_tagged, NewService_steps. simpl.
  destruct (unitFileStep s uf (unitFilePath s name) w) as [[e1 w1] t1].
  unfold value, world, trace in *. simpl in *. subst e1. simpl.
  outcome (envFileStep s uf env w1) E; try done.
  match goal with
  | |- context [notNil ?o] => is_var o; destruct o; simpl
  end; [done |].
  unfold daemonReload. simpl.
  destruct (DaemonReload (systemctl s) (mgr w1)) as [m e3]. simpl. done.
Qed.

(** X6. What [writeUnitFileService] writes, [loadUnitFileSerivce]
    classifies as generated: on a file system that reads back its writes,
    after a write that returned no error the load of the same path
    returns the generated flag set, with the model and error the decoder
    gives for the tag line followed by the marshalled model. *)
Theorem writeUnitFileService_then_load s (u : UnitFileService) path w :
  readsBackWrites →
  let r := writeUnitFileService s u path w in
  value r = None →
  ∃ b2, MarshalUnitFile u = inr b2
        ∧ value (loadUnitFileSerivce s path (world r))
          = ((UnmarshalUnitFile (generatedTag +:+ b2)).1, true,
             (UnmarshalUnitFile (generatedTag +:+ b2)).2).
Proof.
  intros Hrbw r. subst r.
  outcome (writeUnitFileService s u path w) E; intros Hnil; [done |].
  subst. eexists. split; [reflexivity |].
  match goal with
  | H : WriteFile _ _ _ = (_, None) |- _ => apply Hrbw in H as Hback
  end.
  unfold loadUnitFileSerivce, readFile, bind, ret. simpl.
  rewrite Hback, Contains_tagged.
  by destruct (UnmarshalUnitFile _).
Qed.

(** X7. The same for the environment file: what [writeEnvFile] writes,
    [loadEnvFile] classifies as generated. *)
Theorem writeEnvFile_then_load s env path w :
  readsBackWrites →
  let r := writeEnvFile s env path w in
  value r = None →
  ∃ b, toml_Encode env {| Indent := Some "" |} = inr b
       ∧ value (loadEnvFile s path (world r))
         = ((toml_Decode (generatedTag +:+ b)).1, true,
            (toml_Decode (generatedTag +:+ b)).2).
Proof.
  intros Hrbw r. subst r.
  outcome (writeEnvFile s env path w) E; intros Hnil; [done |].
  subst. eexists. split; [reflexivity |].
  match goal with
  | H : WriteFile _ _ _ = (_, None) |- _ => apply Hrbw in H as Hback
  end.
  unfold loadEnvFile, readFile, bind, ret. simpl.
  rewrite Hback, Contains_tagged.
  by destruct (toml_Decode _).
Qed.

(** Facts a successful write and a round-tripping codec add to what is
    known after a first call. *)
Ltac learn Hrbw Hurt Hert :=
  repeat match goal with
         | H : MarshalUnitFile _ = inr ?b2 |- _ =>
             let u' := fresh "u'" in
             destruct (Hurt b2 H) as (u' & ? & ?);
             pose proof (Contains_tagged b2); clear H
         | H : toml_Encode _ _ = inr ?b |- _ =>
             let e' := fresh "e'" in
             destruct (Hert b H) as (e' & ? & ?);
             pose proof (Contains_tagged b); clear H
         end;
  repeat match goal with
         | H : WriteFile ?p ?d ?f = (?f', None) |- _ =>
             pose proof (Hrbw p d f f' H);
             try match goal with
                 | N : p ≠ ?q, F : writesLeaveOthers |- _ =>
                     let X := fresh in
                     pose proof (F p q d f N) as X;
                     rewrite H in X; simpl in X
                 end;
             clear H
         end.

(** X8. Idempotence over two calls.  On a file system that reads back
    its writes and whose writes leave other paths alone, with codecs that
    round-trip the desired model and map, and an environment file that is
    not the unit file itself: after a call of [NewService] that returned
    no error, the same call again writes nothing, leaves the files as
    they are and reloads once. *)
Theorem NewService_twice s name uf env w :
  readsBackWrites →
  writesLeaveOthers →
  unitRoundTrips uf →
  envRoundTrips env →
  Service_EnvironmentFile uf ≠ Some (unitFilePath s name) →
  let r1 := NewService s name uf env w in
  (value r1).2 = None →
  let r2 := NewService s name uf env (world r1) in
  writes (trace r2) = []
  ∧ count isReload (trace r2) = 1
  ∧ fs (world r2) = fs (world r1).
Proof.
  intros Hrbw Hwlo Hurt Hert Halias r1 Hok r2. subst r1 r2.
  revert Hok.
  destruct (Service_EnvironmentFile uf) as [envPath|] eqn:Hef.
  - assert (envPath ≠ unitFilePath s name) as Hne by congruence.
    outcome (NewService s name uf env w) E1; intros Hok; try discriminate Hok;
      learn Hrbw Hurt Hert;
      match goal with
      | |- context [NewService s name uf env ?w2] =>
          outcome (NewService s name uf env w2) E2
      end;
      done.
  - outcome (NewService s name uf env w) E1; intros Hok; try discriminate Hok;
      learn Hrbw Hurt Hert;
      match goal with
      | |- context [NewService s name uf env ?w2] =>
          outcome (NewService s name uf env w2) E2
      end;
      done.
Qed.

(** X12. A failed write of the unit file ends the call: when no file
    is at the unit-file path and the write of the new file reports an
    error, [NewService] returns that error with the zero handle; the
    environment file is not read and nothing is reloaded. *)
Theorem NewService_unit_write_error
    s name uf env w (e writeError : error) (b2 : string) (f : FS) :
  ReadFile (unitFilePath s name) (fs w) = inl e →
  IsNotExist (Some e) = true →
  MarshalUnitFile uf = inr b2 →
  WriteFile (unitFilePath s name) (generatedTag +:+ b2) (fs w)
    = (f, Some writeError) →
  let r := NewService s name uf env w in
  let path := unitFilePath s name in
  value r = (UnitService_zero, Some writeError)
  ∧ trace r = [EvRead path; EvWrite path (generatedTag +:+ b2)]
  ∧ world r = mkWorld f (mgr w).
Proof.
  intros Hread Hne Hm Hw r path. subst r path.
  outcome (NewService s name uf env w) E; done.
Qed.

(** X13. A unit file that does not decode is not repaired: whether
    or not its text carries the tag, when the decoder returns an error
    for it [NewService] returns that error with the zero handle and
    writes nothing, so a generated file that got corrupted is never
    overwritten. *)
Theorem NewService_undecodable_unit_file
    s name uf env w (c : string) (partial : UnitFileService)
    (decodeError : error) :
  ReadFile (unitFilePath s name) (fs w) = inr c →
  UnmarshalUnitFile c = (partial, Some decodeError) →
  IsNotExist (Some decodeError) = false →
  let r := NewService s name uf env w in
  value r = (UnitService_zero, Some decodeError)
  ∧ trace r = [EvRead (unitFilePath s name)]
  ∧ world r = w.
Proof.
  intros Hread Hdec Hne r. subst r.
  outcome (NewService s name uf env w) E; try done.
  all: by destruct w.
Qed.

(** X9. The calls of [NewService]: it only reads files, writes files
    and reloads; it never creates a directory, removes a file or
    disables a unit.  It reads at most twice and writes at most twice,
    every write comes right after a read of the same path, and the
    reload, if made, is made once and is the last call. *)
Theorem NewService_calls s name uf env w :
  let t := trace (NewService s name uf env w) in
  forallb isReconcileCall t = true
  ∧ (count isRead t ≤ 2)%nat
  ∧ (count isWrite t ≤ 2)%nat
  ∧ (count isReload t ≤ 1)%nat
  ∧ (∀ i p d, t !! S i = Some (EvWrite p d) → t !! i = Some (EvRead p))
  ∧ (∀ p d, t !! 0 ≠ Some (EvWrite p d))
  ∧ (∀ i, t !! i = Some EvDaemonReload → S i = List.length t).
Proof.
  intros t. subst t.
  outcome (NewService s name uf env w) E;
    (split_and!;
     [ reflexivity
     | unfold count; simpl; lia
     | unfold count; simpl; lia
     | unfold count; simpl; lia
     | intros i p d; positions i; congruence
     | intros p d; simpl; congruence
     | intros i; positions i; congruence ]).
Qed.

(** X10. The directory [New] keeps is normal: giving [New] the
    directory of a [Systemd] it returned gives that directory again, and
    a directory given without its final [/] gives the same as with it;
    the empty directory becomes [/].  The client is the one passed in. *)
Theorem New_directory_is_normal
    (c c' : Systemctl) (dir : string) w w' w''
    (sd sd' sd'' : Systemd Systemctl) :
  value (New c dir w) = (sd, None) →
  value (New c' (unitFileDir sd) w') = (sd', None) →
  value (New c (dir +:+ "/") w'') = (sd'', None) →
  unitFileDir sd' = unitFileDir sd
  ∧ (HasSuffix dir "/" = false → sd'' = sd)
  ∧ (dir = "" → unitFileDir sd = "/")
  ∧ systemctl sd = c.
Proof.
  intros H1 H2 H3.
  assert (∀ k d v (x : Systemd Systemctl),
            value (New k d v) = (x, None) →
            x = mkSystemd k (if HasSuffix d "/" then d else d +:+ "/"))
    as HNew.
  { intros k d v x. outcome (New k d v) E; try done.
    intros [= <-]. by destruct (HasSuffix d "/"). }
  apply HNew in H1, H2, H3. subst sd sd' sd''. simpl.
  split_and!.
  - destruct (HasSuffix dir "/") eqn:Hs; [by rewrite Hs |].
    by rewrite HasSuffix_append.
  - intros Hs. by rewrite Hs, HasSuffix_append.
  - by intros ->.
  - reflexivity.
Qed.

(** X11. Deleting what was created: for the handle of a call of
    [NewService] that returned no error, [DeleteService] disables the
    unit of that name, stopping it now, and then removes exactly the
    unit-file path of that name.  Where removing a file leaves the other
    paths alone, every other file, the environment file among them, reads
    as before: the environment file is left behind. *)
Theorem DeleteService_after_NewService s name uf env w :
  removesLeaveOthers →
  let r1 := NewService s name uf env w in
  (value r1).2 = None →
  let r2 := DeleteService s (value r1).1 (world r1) in
  (∃ rest, trace r2 = EvDisable name true :: rest
           ∧ (rest = [] ∧ notNil (value r2) = true
              ∨ rest = [EvRemove (unitFilePath s name)]))
  ∧ ∀ q, q ≠ unitFilePath s name →
         ReadFile q (fs (world r2)) = ReadFile q (fs (world r1)).
Proof.
  intros Hrlo r1 Hok r2. subst r1 r2. revert Hok.
  outcome (NewService s name uf env w) E1; intros Hok; try discriminate Hok;
    match goal with
    | |- context [DeleteService s ?u ?w2] =>
        outcome (DeleteService s u w2) E2
    end;
    (split;
     [ eexists; split; [reflexivity |]; first [by left | by right]
     | intros q Hq; try reflexivity;
       match goal with
       | H : os_Remove ?p ?f = (?f', _) |- _ =>
           let X := fresh in
           assert (p ≠ q) as X by congruence;
           pose proof (Hrlo p q f X) as Hfr; rewrite H in Hfr; exact Hfr
       end ]).
Qed.

End EngineMore.

(** ** The engine on the in-memory host *)
Module HostFacts.
Import Host.

Lemma unitLine_no_file acc line :
  IsNotExist acc.2 = false → IsNotExist (unitLine acc line).2 = false.
Proof.
  destruct acc as [u [e|]]; intros Hacc; unfold unitLine; [exact Hacc |].
  repeat match goal with
         | |- context [if ?b then _ else _] => destruct b
         end; reflexivity.
Qed.

Lemma envLine_no_file acc line :
  IsNotExist acc.2 = false → IsNotExist (envLine acc line).2 = false.
Proof.
  destruct acc as [g [e|]]; intros Hacc; unfold envLine; [exact Hacc |].
  repeat match goal with
         | |- context [if ?b then _ else _] => destruct b
         | |- context [match ?o with Some _ => _ | None => _ end] =>
             destruct o as [[? ?]|]
         end; reflexivity.
Qed.

Lemma fold_no_file {A} (f : A * goerr → string → A * goerr) :
  (∀ acc line, IsNotExist acc.2 = false → IsNotExist (f acc line).2 = false) →
  ∀ ls acc, IsNotExist acc.2 = false →
            IsNotExist (fold_left f ls acc).2 = false.
Proof.
  intros Hf ls. induction ls as [|l ls IH]; intros acc Hacc; [done |].
  simpl. apply IH, Hf, Hacc.
Qed.

(** The host's decoders only fail with parse errors. *)
Lemma decoders_see_no_files : decodersSeeNoFiles.
Proof.
  split; intros b; simpl.
  - unfold unmarshalUnit. by apply fold_no_file; [apply unitLine_no_file |].
  - unfold decodeEnv.
    pose proof (fold_no_file envLine envLine_no_file (linesOf b) (∅, None)
                  eq_refl) as Hfold.
    by destruct (fold_left envLine (linesOf b) (∅, None)).
Qed.

(** The write of the environment file in the worker scenario finds no
    file there. *)
Lemma NewService_writes_only_absent_or_tagged_witness :
  decodersSeeNoFiles
  ∧ trace (NewService units "worker" worker workerEnv emptyHost) !! 3 =
      Some (EvWrite "/etc/worker.env"
              (generatedTag +:+ "PORT=8080" +:+ String LF ""))
  ∧ absentOrTagged "/etc/worker.env"
      (replay
         (take 3 (trace (NewService units "worker" worker workerEnv emptyHost)))
         (fs emptyHost)).
Proof.
  split; [exact decoders_see_no_files |].
  split; [vm_compute; reflexivity |].
  apply (NewService_writes_only_absent_or_tagged
           units "worker" worker workerEnv emptyHost 3 "/etc/worker.env"
           (generatedTag +:+ "PORT=8080" +:+ String LF ""));
    [exact decoders_see_no_files | vm_compute; reflexivity].
Defined.

(** C2 fails as stated: notes that are no unit file sit at the worker's
    path, without the tag; [NewService] returns the decoder's error, not
    [ErrUnitFileNotManaged]. *)
Lemma NewService_foreign_undecodable_unit_file :
  let r := NewService units "worker" worker workerEnv notesHost in
  ReadFile "/run/units/worker.service" (fs notesHost)
    = inr "notes on the worker"
  ∧ Contains "notes on the worker" generatedTag = false
  ∧ (value r).2 = Some (ErrOther "cannot parse line: notes on the worker")
  ∧ (value r).2 ≠ Some ErrUnitFileNotManaged.
Proof. intros r. repeat apply conj; vm_compute; congruence. Qed.

Lemma NewService_refuses_foreign_unit_file_witness :
  let r := NewService units "worker" worker workerEnv foreignHost in
  value r = (UnitService_zero, Some ErrUnitFileNotManaged)
  ∧ trace r = [EvRead "/run/units/worker.service"]
  ∧ world r = foreignHost.
Proof.
  refine (NewService_refuses_foreign_unit_file
            units "worker" worker workerEnv foreignHost foreignUnit _ _ _);
    vm_compute; reflexivity.
Defined.


(** C4 fails as stated: with the manager out of reach the reload
    fails, and [NewService] returns that error together with the full
    handle. *)
Lemma NewService_reload_error_with_handle :
  let r := NewService units "worker" worker workerEnv (unreachable emptyHost) in
  (value r).2 = Some (ErrOther "failed to connect to bus")
  ∧ (value r).1 =
      mkUnitService SystemBus "worker" worker "/run/units/worker.service"
        workerEnv
  ∧ (value r).1 ≠ UnitService_zero.
Proof. intros r. repeat apply conj; vm_compute; congruence. Qed.

Lemma NewService_creates_tagged_unit_file_witness :
  let r := NewService units "worker" worker workerEnv emptyHost in
  let path := "/run/units/worker.service" in
  let b2 := "[Service]" +:+ String LF
              ("Description=worker" +:+ String LF
                 ("EnvironmentFile=/etc/worker.env" +:+ String LF "")) in
  (∃ t, trace r = EvRead path :: EvWrite path (generatedTag +:+ b2) :: t
        ∧ ∀ d, EvWrite path d ∈ t → Service_EnvironmentFile worker = Some path)
  ∧ HasPrefix (generatedTag +:+ b2) generatedTag = true
  ∧ (cutLine (generatedTag +:+ b2)).1 = "#! Generated by systemd-cd"
  ∧ UnmarshalUnitFile (cutLine (generatedTag +:+ b2)).2 = (worker, None).
Proof.
  refine (NewService_creates_tagged_unit_file
            units "worker" worker workerEnv emptyHost
            (ErrNotExist "/run/units/worker.service") _ _ _ _ _);
    vm_compute; reflexivity.
Defined.



Lemma NewService_reloads_once_on_success_witness :
  count isReload (trace (NewService units "worker" worker workerEnv workerHost))
    = 1
  ∧ count isReload (trace (NewService units "worker" worker workerEnv foreignHost))
    = 0.
Proof.
  split.
  - destruct (NewService_reloads_once_on_success
                units "worker" worker workerEnv workerHost) as [Hok _].
    apply Hok. vm_compute; reflexivity.
  - destruct (NewService_reloads_once_on_success
                units "worker" worker workerEnv foreignHost)
      as (_ & Hfail & _).
    apply Hfail. vm_compute; reflexivity.
Defined.

Lemma NewService_without_environment_file_witness :
  let r := NewService units "plain" plain workerEnv emptyHost in
  let r' := NewService units "plain" plain None emptyHost in
  Forall (λ e, ∀ p, filePath e = Some p → p = "/run/units/plain.service")
    (trace r)
  ∧ trace r = trace r'
  ∧ world r = world r'
  ∧ (value r).2 = (value r').2.
Proof.
  refine (NewService_without_environment_file
            units "plain" plain workerEnv None emptyHost _).
  reflexivity.
Defined.

Lemma New_unit_file_path_witness :
  value (New SystemBus "/run/units" emptyHost)
    = (mkSystemd SystemBus "/run/units/", None)
  ∧ trace (NewService (mkSystemd SystemBus "/run/units/") "" plain None emptyHost)
      !! 0 = Some (EvRead "/run/units/.service").
Proof.
  assert (value (New SystemBus "/run/units" emptyHost)
            = (mkSystemd SystemBus "/run/units/", None)) as HNew
    by (vm_compute; reflexivity).
  split; [exact HNew |].
  destruct (New_unit_file_path SystemBus "/run/units" emptyHost
              (mkSystemd SystemBus "/run/units/") HNew)
    as (_ & _ & _ & _ & Hcalls).
  destruct (Hcalls "" plain None emptyHost) as [[t Ht] _].
  rewrite Ht. reflexivity.
Defined.

End HostFacts.

(** ** More of the engine on the in-memory host *)
Module HostMoreFacts.
Import Host HostMore.

(** The in-memory files obey the file-system laws. *)
Lemma memFiles_reads_back_writes : readsBackWrites (FS := gmap string string).
Proof.
  intros p d f f'. cbv [WriteFile ReadFile memFiles].
  destruct (HasPrefix p "/proc/"); intros [= <-].
  by rewrite lookup_insert_eq.
Qed.

Lemma memFiles_writes_leave_others :
  writesLeaveOthers (FS := gmap string string).
Proof.
  intros p q d f Hpq. cbv [WriteFile ReadFile memFiles].
  destruct (HasPrefix p "/proc/"); simpl; [done |].
  by rewrite lookup_insert_ne.
Qed.

Lemma memFiles_removes_leave_others :
  removesLeaveOthers (FS := gmap string string).
Proof.
  intros p q f Hpq. cbv [os_Remove ReadFile memFiles].
  destruct (f !! p); simpl; [| done].
  by rewrite lookup_delete_ne.
Qed.

Lemma worker_round_trips : unitRoundTrips worker.
Proof.
  intros b2 [= <-]. exists worker. split; vm_compute; reflexivity.
Qed.

Lemma workerEnv_round_trips : envRoundTrips workerEnv.
Proof.
  intros b Hb. vm_compute in Hb. injection Hb as <-.
  exists workerEnv. split; vm_compute; reflexivity.
Qed.

Lemma NewService_overwrites_changed_unit_file_witness :
  let r := NewService units "worker" worker workerEnv editedHost in
  let path := unitFilePath units "worker" in
  ∃ t, trace r = EvRead path :: EvWrite path (generatedTag +:+ workerText) :: t.
Proof.
  refine (NewService_overwrites_changed_unit_file
            units "worker" worker workerEnv editedHost
            editedAbove editedBelow workerText (mkUnit "old" None) _ _ _ _);
    vm_compute; reflexivity.
Defined.

Lemma NewService_unit_read_error_witness :
  let r := NewService units "worker" worker workerEnv brokenHost in
  value r = (UnitService_zero, Some ErrNoSuchFileOrDir)
  ∧ trace r = [EvRead (unitFilePath units "worker")]
  ∧ world r = brokenHost.
Proof.
  refine (NewService_unit_read_error
            units "worker" worker workerEnv brokenHost ErrNoSuchFileOrDir _ _);
    reflexivity.
Defined.

Lemma NewService_marshal_error_writes_nothing_witness :
  let r := NewService units "worker" twoLines workerEnv emptyHost in
  value r = (UnitService_zero, Some (ErrOther "line feed in Description"))
  ∧ trace r = [EvRead (unitFilePath units "worker")]
  ∧ world r = emptyHost.
Proof.
  refine (NewService_marshal_error_writes_nothing
            units "worker" twoLines workerEnv emptyHost
            (ErrNotExist "/run/units/worker.service")
            (ErrOther "line feed in Description") _ _ _);
    vm_compute; reflexivity.
Defined.

Lemma NewService_refuses_foreign_env_file_witness :
  let u := unitFileStep units worker (unitFilePath units "worker")
             foreignEnvHost in
  let r := NewService units "worker" worker workerEnv foreignEnvHost in
  value r =
    (UnitService_zero,
     Some match (toml_Decode ("PORT=1" +:+ String LF "")).2 with
          | None => ErrUnitEnvFileNotManaged
          | Some decodeError => decodeError
          end)
  ∧ trace r = trace u ++ [EvRead "/etc/worker.env"]
  ∧ world r = world u.
Proof.
  refine (NewService_refuses_foreign_env_file
            units "worker" worker workerEnv foreignEnvHost
            "/etc/worker.env" ("PORT=1" +:+ String LF "") _ _ _ _ _);
    vm_compute; reflexivity.
Defined.

Lemma NewService_creates_tagged_env_file_witness :
  let u := unitFileStep units worker (unitFilePath units "worker") emptyHost in
  let r := NewService units "worker" worker workerEnv emptyHost in
  let data := generatedTag +:+ "PORT=8080" +:+ String LF "" in
  let written := WriteFile "/etc/worker.env" data (fs (world u)) in
  trace r =
    trace u ++ EvRead "/etc/worker.env" :: EvWrite "/etc/worker.env" data
            :: (if notNil written.2 then [] else [EvDaemonReload])
  ∧ fs (world r) = written.1
  ∧ cutLine data = ("#! Generated by systemd-cd", "PORT=8080" +:+ String LF "").
Proof.
  refine (NewService_creates_tagged_env_file
            units "worker" worker workerEnv emptyHost
            "/etc/worker.env" ("PORT=8080" +:+ String LF "")
            (ErrNotExist "/etc/worker.env") _ _ _ _ _);
    vm_compute; reflexivity.
Defined.

Lemma writeUnitFileService_then_load_witness :
  let r := writeUnitFileService units worker "/run/units/worker.service"
             emptyHost in
  ∃ b2, MarshalUnitFile worker = inr b2
        ∧ value (loadUnitFileSerivce units "/run/units/worker.service" (world r))
          = ((UnmarshalUnitFile (generatedTag +:+ b2)).1, true,
             (UnmarshalUnitFile (generatedTag +:+ b2)).2).
Proof.
  refine (writeUnitFileService_then_load
            units worker "/run/units/worker.service" emptyHost
            memFiles_reads_back_writes _).
  vm_compute; reflexivity.
Defined.

Lemma writeEnvFile_then_load_witness :
  let r := writeEnvFile units workerEnv "/etc/worker.env" emptyHost in
  ∃ b, toml_Encode workerEnv {| Indent := Some "" |} = inr b
       ∧ value (loadEnvFile units "/etc/worker.env" (world r))
         = ((toml_Decode (generatedTag +:+ b)).1, true,
            (toml_Decode (generatedTag +:+ b)).2).
Proof.
  refine (writeEnvFile_then_load
            units workerEnv "/etc/worker.env" emptyHost
            memFiles_reads_back_writes _).
  vm_compute; reflexivity.
Defined.

Lemma NewService_twice_witness :
  let r1 := NewService units "worker" worker workerEnv emptyHost in
  let r2 := NewService units "worker" worker workerEnv (world r1) in
  writes (trace r2) = []
  ∧ count isReload (trace r2) = 1
  ∧ fs (world r2) = fs (world r1).
Proof.
  refine (NewService_twice units "worker" worker workerEnv emptyHost
            memFiles_reads_back_writes memFiles_writes_leave_others
            worker_round_trips workerEnv_round_trips _ _).
  - vm_compute. congruence.
  - vm_compute. reflexivity.
Defined.

Lemma NewService_unit_write_error_witness :
  let r := NewService procUnits "worker" worker workerEnv emptyHost in
  let path := unitFilePath procUnits "worker" in
  value r = (UnitService_zero, Some (ErrOther "read-only file system"))
  ∧ trace r = [EvRead path; EvWrite path (generatedTag +:+ workerText)]
  ∧ world r = mkWorld ∅ (mgr emptyHost).
Proof.
  refine (NewService_unit_write_error
            procUnits "worker" worker workerEnv emptyHost
            (ErrNotExist "/proc/units/worker.service")
            (ErrOther "read-only file system") workerText ∅ _ _ _ _);
    vm_compute; reflexivity.
Defined.

Lemma NewService_undecodable_unit_file_witness :
  let r := NewService units "worker" worker workerEnv damagedHost in
  value r = (UnitService_zero, Some (ErrOther "cannot parse line: Descripti"))
  ∧ trace r = [EvRead (unitFilePath units "worker")]
  ∧ world r = damagedHost.
Proof.
  refine (NewService_undecodable_unit_file
            units "worker" worker workerEnv damagedHost
            (generatedTag +:+ "Descripti") (mkUnit "" None)
            (ErrOther "cannot parse line: Descripti") _ _ _);
    vm_compute; reflexivity.
Defined.

Lemma New_directory_is_normal_witness :
  unitFileDir (mkSystemd SystemBus "/run/units/") = "/run/units/"
  ∧ (HasSuffix "/run/units" "/" = false →
     mkSystemd SystemBus "/run/units/" = mkSystemd SystemBus "/run/units/")
  ∧ ("/run/units" = "" → unitFileDir (mkSystemd SystemBus "/run/units/") = "/")
  ∧ systemctl (mkSystemd SystemBus "/run/units/") = SystemBus.
Proof.
  refine (New_directory_is_normal
            SystemBus NoBus "/run/units" emptyHost emptyHost emptyHost
            (mkSystemd SystemBus "/run/units/")
            (mkSystemd NoBus "/run/units/")
            (mkSystemd SystemBus "/run/units/") _ _ _);
    vm_compute; reflexivity.
Defined.

Lemma DeleteService_after_NewService_witness :
  let r1 := NewService units "worker" worker workerEnv emptyHost in
  let r2 := DeleteService units (value r1).1 (world r1) in
  (∃ rest, trace r2 = EvDisable "worker" true :: rest
           ∧ (rest = [] ∧ notNil (value r2) = true
              ∨ rest = [EvRemove (unitFilePath units "worker")]))
  ∧ ∀ q, q ≠ unitFilePath units "worker" →
         ReadFile q (fs (world r2)) = ReadFile q (fs (world r1)).
Proof.
  refine (DeleteService_after_NewService units "worker" worker workerEnv
            emptyHost memFiles_removes_leave_others _).
  vm_compute; reflexivity.
Defined.

(** After the worker is created and deleted, its unit file is gone and
    its environment file is still there. *)
Example worker_deleted :
  let r1 := NewService units "worker" worker workerEnv emptyHost in
  let r2 := DeleteService units (value r1).1 (world r1) in
  value r2 = None
  ∧ fs (world r2) !! "/run/units/worker.service" = None
  ∧ fs (world r2) !! "/etc/worker.env"
    = Some (generatedTag +:+ "PORT=8080" +:+ String LF "").
Proof. intros r1 r2. repeat apply conj; vm_compute; reflexivity. Qed.

End HostMoreFacts.
